(** * gomonad: Maybe, Result and Either

    A shallow embedding of the three generic containers of the Go package
    and of their chaining functions, followed by the laws they satisfy.

    Go structs are records with the fields of the source.  A struct literal
    that leaves a field out stores that field's zero value, so every
    element type comes with its zero value ([Zero]).  A function value
    passed by the caller ([func(T) U]) may have effects; it is a function
    into a state monad over an arbitrary world [W], so that "f is not
    invoked" is a statement about the world and about a call log. *)

From Stdlib Require Import ZArith String List Bool.
Import ListNotations.
Local Open Scope string_scope.

Set Implicit Arguments.

(** ** Zero values *)

(** The value Go stores in a variable or field that is not initialised. *)
Class Zero (T : Type) : Type := zero : T.

(** Go's [int], far from its bounds in everything below. *)
Definition int : Type := Z.

#[export] Instance Zero_int : Zero int := 0%Z.
#[export] Instance Zero_string : Zero string := EmptyString.
#[export] Instance Zero_bool : Zero bool := false.

(** ** The [error] interface *)

(** A type implements [error] when it has a method [Error() string]. *)
Class GoError (E : Type) : Type := Error : E -> string.

(** A non-nil interface value: a dynamic type, its method and a value. *)
Inductive error_value : Type :=
  | dyn_error (E : Type) (impl : GoError E) (v : E).

(** A value of interface type [error]: [nil] or a dynamic value. *)
Definition error : Type := option error_value.
Definition nil : error := None.

#[export] Instance Zero_error : Zero error := nil.

(** The implementation behind [errors.New], as used by the package's
    documentation to build failures. *)
Record errorString : Type := { s : string }.
#[export] Instance GoError_errorString : GoError errorString := fun e => s e.
Definition errors_New (text : string) : error :=
  Some (dyn_error GoError_errorString {| s := text |}).

(** ** Effects of the functions supplied by the caller *)

(** A computation that returns an [A] and may change the world [W]. *)
Definition Eff (W A : Type) : Type := W -> A * W.

Definition ret {W A : Type} (a : A) : Eff W A := fun w => (a, w).

Definition bind {W A B : Type} (c : Eff W A) (k : A -> Eff W B) : Eff W B :=
  fun w => let (a, w') := c w in k a w'.

Declare Scope eff_scope.
Delimit Scope eff_scope with eff.
Notation "x <- c ;; k" := (bind c (fun x => k))
  (at level 61, c at next level, right associativity) : eff_scope.
Local Open Scope eff_scope.

(** A Go function without effects, such as [func(x T) T { return x }]. *)
Definition pure_fn {W T U : Type} (f : T -> U) : T -> Eff W U :=
  fun x => ret (f x).

(** A side-effect-counting stub: [logged tag f] behaves as [f] and records
    [tag] in a call log each time it is invoked. *)
Definition logged {W L T U : Type} (tag : L) (f : T -> Eff W U)
  : T -> Eff (W * list L) U :=
  fun x st =>
    let (y, w') := f x (fst st) in (y, (w', tag :: snd st)).

(** The call log a computation leaves behind. *)
Definition call_log {W L A : Type} (r : A * (W * list L)) : list L :=
  snd (snd r).

(** ** Package maybepkg *)

Module maybepkg.

Record Maybe (T : Type) : Type := mkMaybe { value : T; isJust : bool }.

Definition Just {T : Type} (val : T) : Maybe T :=
  {| value := val; isJust := true |}.

Definition Nothing {T : Type} `{Zero T} : Maybe T :=
  {| value := zero; isJust := false |}.

Definition Bind {W T U : Type} `{Zero U}
    (m : Maybe T) (f : T -> Eff W (Maybe U)) : Eff W (Maybe U) :=
  if negb (isJust m) then ret Nothing
  else f (value m).

Definition Map {W T U : Type} `{Zero U}
    (m : Maybe T) (f : T -> Eff W U) : Eff W (Maybe U) :=
  if negb (isJust m) then ret Nothing
  else y <- f (value m) ;; ret (Just y).

(** Methods of [Maybe[T]]. *)
Module Maybe.

Definition Unpack {T : Type} (m : Maybe T) (defaultValue : T) : T :=
  if negb (isJust m) then defaultValue else value m.

Definition IsJust {T : Type} (m : Maybe T) : bool := isJust m.

Definition IsNothing {T : Type} (m : Maybe T) : bool := negb (isJust m).

Definition Get {T : Type} (m : Maybe T) : T := value m.

End Maybe.

(** The fields are not exported, so a client only ever holds a value
    that [Just] or [Nothing] built. *)
Definition Maybe_wf {T : Type} `{Zero T} (m : Maybe T) : Prop :=
  m = if isJust m then Just (value m) else Nothing.

End maybepkg.

(** ** Package gomonad *)

Module gomonad.

(** *** result.go *)

Record Result (T : Type) : Type :=
  mkResult { value : T; err : error; isError : bool }.

Definition Ok {T : Type} (val : T) : Result T :=
  {| value := val; err := zero; isError := false |}.

Definition Err {T : Type} `{Zero T} (err : error) : Result T :=
  {| value := zero; err := err; isError := true |}.

(** Methods of [Result[T]]. *)
Module Result.

Definition IsOk {T : Type} (r : Result T) : bool := negb (isError r).
Definition IsErr {T : Type} (r : Result T) : bool := isError r.
Definition Get {T : Type} (r : Result T) : T := value r.
Definition GetErr {T : Type} (r : Result T) : error := err r.

End Result.

Definition BindResult {W T U : Type} `{Zero U}
    (r : Result T) (f : T -> Eff W (Result U)) : Eff W (Result U) :=
  if isError r then ret (Err (err r))
  else f (value r).

Definition MapResult {W T U : Type} `{Zero U}
    (r : Result T) (f : T -> Eff W U) : Eff W (Result U) :=
  if isError r then ret (Err (err r))
  else y <- f (value r) ;; ret (Ok y).

Definition Result_wf {T : Type} `{Zero T} (r : Result T) : Prop :=
  r = if isError r then Err (err r) else Ok (value r).

(** *** either.go *)

Record Either (A B : Type) : Type :=
  mkEither { left : A; right : B; isLeft : bool }.

Definition Left {A B : Type} `{Zero B} (val : A) : Either A B :=
  {| left := val; right := zero; isLeft := true |}.

Definition Right {A B : Type} `{Zero A} (val : B) : Either A B :=
  {| left := zero; right := val; isLeft := false |}.

(** Methods of [Either[A, B]]. *)
Module Either.

Definition IsLeft {A B : Type} (e : Either A B) : bool := isLeft e.
Definition IsRight {A B : Type} (e : Either A B) : bool := negb (isLeft e).
Definition Left {A B : Type} (e : Either A B) : A := left e.
Definition Right {A B : Type} (e : Either A B) : B := right e.

End Either.

Definition MapRight {W A B C : Type} `{Zero A} `{Zero C}
    (e : Either A B) (f : B -> Eff W C) : Eff W (Either A C) :=
  if isLeft e then ret (Left (left e))
  else y <- f (right e) ;; ret (Right y).

Definition Fold {W A B T : Type}
    (e : Either A B) (leftFunc : A -> Eff W T) (rightFunc : B -> Eff W T)
    : Eff W T :=
  if isLeft e then leftFunc (left e)
  else rightFunc (right e).

Definition Swap {A B : Type} `{Zero A} `{Zero B}
    (e : Either A B) : Either B A :=
  if isLeft e then Right (left e)
  else Left (right e).

Definition MapLeft {W A B C : Type} `{Zero B} `{Zero C}
    (e : Either A B) (f : A -> Eff W C) : Eff W (Either C B) :=
  if isLeft e then y <- f (left e) ;; ret (Left y)
  else ret (Right (right e)).

Definition ToResult {T : Type} `{Zero T}
    (e : Either error T) : Result T :=
  if isLeft e then Err (left e)
  else Ok (right e).

Definition Either_wf {A B : Type} `{Zero A} `{Zero B}
    (e : Either A B) : Prop :=
  e = if isLeft e then Left (left e) else Right (right e).

End gomonad.

(** ** Client code from the package documentation *)

Import maybepkg gomonad.

(** [findUser] of the README. *)
Definition findUser (id : int) : Maybe string :=
  if (id =? 42%Z)%Z then Just "Alice" else Nothing.

(** The age check chained by [BindResult] in the README. *)
Definition checkAge {W : Type} (age : int) : Eff W (Result int) :=
  if (age <? 18%Z)%Z then ret (Err (errors_New "too young")) else ret (Ok age).



(** * Properties *)

(** ** The effect monad and the call log *)

Lemma bind_ret_l {W A B : Type} (a : A) (k : A -> Eff W B) (w : W) :
  (x <- ret a ;; k x) w = k a w.
Proof. reflexivity. Qed.

Lemma bind_ret_r {W A : Type} (c : Eff W A) (w : W) :
  (x <- c ;; ret x) w = c w.
Proof. unfold bind, ret. destruct (c w); reflexivity. Qed.

Lemma bind_assoc {W A B C : Type}
    (c : Eff W A) (k : A -> Eff W B) (h : B -> Eff W C) (w : W) :
  (y <- (x <- c ;; k x) ;; h y) w = (x <- c ;; y <- k x ;; h y) w.
Proof. unfold bind. destruct (c w); reflexivity. Qed.

(** One invocation of a logged function adds exactly its tag. *)
Lemma call_log_logged {W L T U : Type}
    (tag : L) (f : T -> Eff W U) (x : T) (w : W) (log : list L) :
  call_log (logged tag f x (w, log)) = tag :: log.
Proof. unfold call_log, logged. simpl. destruct (f x w); reflexivity. Qed.

(** ** The values a client can hold *)

Lemma Maybe_wf_iff {T : Type} `{Zero T} (m : Maybe T) :
  Maybe_wf m <-> m = Nothing \/ exists v, m = Just v.
Proof.
  unfold Maybe_wf. split.
  - destruct (maybepkg.isJust m); intros ->; [right; eexists|left]; reflexivity.
  - intros [-> | [v ->]]; reflexivity.
Qed.

Lemma Result_wf_iff {T : Type} `{Zero T} (r : Result T) :
  Result_wf r <-> (exists e, r = Err e) \/ exists v, r = Ok v.
Proof.
  unfold Result_wf. split.
  - destruct (isError r); intros ->; [left|right]; eexists; reflexivity.
  - intros [[e ->] | [v ->]]; reflexivity.
Qed.

Lemma Either_wf_iff {A B : Type} `{Zero A} `{Zero B} (e : Either A B) :
  Either_wf e <-> (exists a, e = Left a) \/ exists b, e = Right b.
Proof.
  unfold Either_wf. split.
  - destruct (isLeft e); intros ->; [left|right]; eexists; reflexivity.
  - intros [[a ->] | [b ->]]; reflexivity.
Qed.

(** Every operation hands back a value built by a constructor, provided
    the caller's function does. *)
Lemma Bind_wf {W T U : Type} `{Zero U}
    (m : Maybe T) (f : T -> Eff W (Maybe U)) (w : W) :
  (forall x w0, Maybe_wf (fst (f x w0))) -> Maybe_wf (fst (Bind m f w)).
Proof.
  intros Hf. unfold Bind. destruct (maybepkg.isJust m); simpl.
  - apply Hf.
  - reflexivity.
Qed.

Lemma Map_wf {W T U : Type} `{Zero U}
    (m : Maybe T) (f : T -> Eff W U) (w : W) :
  Maybe_wf (fst (Map m f w)).
Proof.
  unfold Map, bind, ret. destruct (maybepkg.isJust m); simpl.
  - destruct (f (maybepkg.value m) w); reflexivity.
  - reflexivity.
Qed.

Lemma BindResult_wf {W T U : Type} `{Zero U}
    (r : Result T) (f : T -> Eff W (Result U)) (w : W) :
  (forall x w0, Result_wf (fst (f x w0))) -> Result_wf (fst (BindResult r f w)).
Proof.
  intros Hf. unfold BindResult. destruct (isError r); simpl.
  - reflexivity.
  - apply Hf.
Qed.

Lemma MapResult_wf {W T U : Type} `{Zero U}
    (r : Result T) (f : T -> Eff W U) (w : W) :
  Result_wf (fst (MapResult r f w)).
Proof.
  unfold MapResult, bind, ret. destruct (isError r); simpl.
  - reflexivity.
  - destruct (f (value r) w); reflexivity.
Qed.

Lemma Swap_wf {A B : Type} `{Zero A} `{Zero B} (e : Either A B) :
  Either_wf (Swap e).
Proof. unfold Swap. destruct (isLeft e); reflexivity. Qed.

Lemma MapRight_wf {W A B C : Type} `{Zero A} `{Zero C}
    (e : Either A B) (f : B -> Eff W C) (w : W) :
  Either_wf (fst (MapRight e f w)).
Proof.
  unfold MapRight, bind, ret. destruct (isLeft e); simpl.
  - reflexivity.
  - destruct (f (right e) w); reflexivity.
Qed.

Lemma MapLeft_wf {W A B C : Type} `{Zero B} `{Zero C}
    (e : Either A B) (f : A -> Eff W C) (w : W) :
  Either_wf (fst (MapLeft e f w)).
Proof.
  unfold MapLeft, bind, ret. destruct (isLeft e); simpl.
  - destruct (f (left e) w); reflexivity.
  - reflexivity.
Qed.

Lemma ToResult_wf {T : Type} `{Zero T} (e : Either error T) :
  Result_wf (ToResult e).
Proof. unfold ToResult. destruct (isLeft e); reflexivity. Qed.

(** ** Short-circuiting *)

(** C1.  On an absent [Maybe], [Bind] returns [Nothing] and does not invoke
    its function: the world is left as it was, whatever the function would
    do, and a logged function leaves no entry in the call log.  On a failed
    [Result], [BindResult] and [MapResult] likewise do not invoke their
    function and return the failure built from the very error the input
    carried. *)
Theorem negative_short_circuits
    {W L T U : Type} `{Zero U}
    (m : Maybe T) (r : Result T)
    (f : T -> Eff W (Maybe U)) (g : T -> Eff W (Result U)) (h : T -> Eff W U)
    (tag : L) (w : W) (log : list L) :
  Maybe.IsNothing m = true ->
  Result.IsErr r = true ->
  (Bind m f w = (Nothing, w) /\
   call_log (Bind m (logged tag f) (w, log)) = log) /\
  (BindResult r g w = (Err (Result.GetErr r), w) /\
   call_log (BindResult r (logged tag g) (w, log)) = log) /\
  (MapResult r h w = (Err (Result.GetErr r), w) /\
   call_log (MapResult r (logged tag h) (w, log)) = log).
Proof.
  unfold Maybe.IsNothing, Result.IsErr, Result.GetErr.
  intros Hm Hr.
  unfold Bind, BindResult, MapResult. rewrite Hm, Hr.
  repeat split.
Qed.

Lemma negative_short_circuits_witness :
  Maybe.IsNothing (@Nothing int _) = true /\
  Result.IsErr (@Err int _ (errors_New "bad")) = true /\
  (Bind (@Nothing int _) (fun x n => (Just (x + 1)%Z, S n)) 0
     = (Nothing, 0) /\
   call_log (Bind (@Nothing int _)
               (logged "f" (fun x n => (Just (x + 1)%Z, S n))) (0, []))
     = []) /\
  (BindResult (@Err int _ (errors_New "bad"))
     (fun x n => (Ok (x + 1)%Z, S n)) 0
     = (Err (errors_New "bad"), 0) /\
   call_log (BindResult (@Err int _ (errors_New "bad"))
               (logged "f" (fun x n => (Ok (x + 1)%Z, S n))) (0, []))
     = []) /\
  (MapResult (@Err int _ (errors_New "bad"))
     (fun x n => ((x + 1)%Z, S n)) 0
     = (Err (errors_New "bad"), 0) /\
   call_log (MapResult (@Err int _ (errors_New "bad"))
               (logged "f" (fun x n => ((x + 1)%Z, S n))) (0, []))
     = []).
Proof.
  split; [reflexivity|]. split; [reflexivity|].
  apply (@negative_short_circuits nat string int int _
           (@Nothing int _) (@Err int _ (errors_New "bad"))
           (fun x n => (Just (x + 1)%Z, S n))
           (fun x n => (Ok (x + 1)%Z, S n))
           (fun x n => ((x + 1)%Z, S n))
           "f" 0 []); reflexivity.
Defined.

(** ** The bridge from [Either] to [Result] *)

(** C2.  [ToResult] turns [Left a] into the failure carrying [a] and
    [Right b] into the success carrying [b]. *)
Theorem ToResult_bridge {T : Type} `{Zero T} (a : error) (b : T) :
  (ToResult (Left a) = Err a /\
   Result.IsErr (ToResult (Left a)) = true /\
   Result.GetErr (ToResult (Left a)) = a) /\
  (ToResult (Right b) = Ok b /\
   Result.IsOk (ToResult (Right b)) = true /\
   Result.Get (ToResult (Right b)) = b).
Proof. repeat split. Qed.

(** ** Fold *)

(** C3.  [Fold] on a left-populated [Either] is the left function applied
    to the left value, and of two logged functions only the left one is
    recorded; symmetrically on a right-populated one.  Whatever the
    [Either], the call log grows by exactly one entry, the tag of the
    function of the populated side. *)
Theorem Fold_dispatches_once
    {W L A B T : Type} (e : Either A B)
    (onLeft : A -> Eff W T) (onRight : B -> Eff W T)
    (tl tr : L) (w : W) (log : list L) :
  (Either.IsLeft e = true ->
     Fold e onLeft onRight w = onLeft (Either.Left e) w /\
     call_log (Fold e (logged tl onLeft) (logged tr onRight) (w, log))
       = tl :: log) /\
  (Either.IsRight e = true ->
     Fold e onLeft onRight w = onRight (Either.Right e) w /\
     call_log (Fold e (logged tl onLeft) (logged tr onRight) (w, log))
       = tr :: log) /\
  call_log (Fold e (logged tl onLeft) (logged tr onRight) (w, log))
    = (if Either.IsLeft e then tl else tr) :: log.
Proof.
  unfold Either.IsLeft, Either.IsRight, Either.Left, Either.Right, Fold.
  destruct (isLeft e); simpl; repeat split;
    try discriminate; try (intros _; split; [reflexivity|]);
    apply call_log_logged.
Qed.

Lemma Fold_dispatches_once_witness :
  let onLeft : int -> Eff nat string := fun i n => ("num", S n) in
  let onRight : string -> Eff nat string := fun s n => ("str", n + 10) in
  (Either.IsLeft (@Left int string _ 7%Z) = true /\
   Fold (@Left int string _ 7%Z) onLeft onRight 0 = ("num", 1) /\
   call_log (Fold (@Left int string _ 7%Z)
               (logged "onLeft" onLeft) (logged "onRight" onRight) (0, []))
     = ["onLeft"]) /\
  (Either.IsRight (@Right int string _ "x") = true /\
   Fold (@Right int string _ "x") onLeft onRight 0 = ("str", 10) /\
   call_log (Fold (@Right int string _ "x")
               (logged "onLeft" onLeft) (logged "onRight" onRight) (0, []))
     = ["onRight"]).
Proof.
  intros onLeft onRight. split.
  - split; [reflexivity|].
    apply (proj1 (@Fold_dispatches_once nat string int string string
                    (@Left int string _ 7%Z) onLeft onRight
                    "onLeft" "onRight" 0 [])).
    reflexivity.
  - split; [reflexivity|].
    apply (proj1 (proj2 (@Fold_dispatches_once nat string int string string
                           (@Right int string _ "x") onLeft onRight
                           "onLeft" "onRight" 0 []))).
    reflexivity.
Defined.

(** ** Monad and functor laws *)

(** C4.  [Bind] and [BindResult] are associative: binding [f] and then [g]
    is binding the function that runs [f] and binds [g] to its result, with
    the same effects in the same order. *)
Theorem Bind_associative
    {W T U V : Type} `{Zero U} `{Zero V}
    (m : Maybe T) (f : T -> Eff W (Maybe U)) (g : U -> Eff W (Maybe V))
    (r : Result T) (fr : T -> Eff W (Result U)) (gr : U -> Eff W (Result V))
    (w : W) :
  (m' <- Bind m f ;; Bind m' g) w
    = Bind m (fun x => m' <- f x ;; Bind m' g) w /\
  (r' <- BindResult r fr ;; BindResult r' gr) w
    = BindResult r (fun x => r' <- fr x ;; BindResult r' gr) w.
Proof.
  unfold Bind, BindResult. split.
  - destruct (maybepkg.isJust m); reflexivity.
  - destruct (isError r); reflexivity.
Qed.

(** C5.  Mapping the identity function over a [Maybe] or a [Result] that a
    constructor built returns that very value. *)
Theorem Map_identity
    {W T : Type} `{Zero T} (m : Maybe T) (r : Result T) (w : W) :
  Maybe_wf m ->
  Result_wf r ->
  Map m (pure_fn (fun x => x)) w = (m, w) /\
  MapResult r (pure_fn (fun x => x)) w = (r, w).
Proof.
  unfold Maybe_wf, Result_wf, Map, MapResult. intros Hm Hr. split.
  - destruct (maybepkg.isJust m); rewrite Hm; reflexivity.
  - destruct (isError r); rewrite Hr; reflexivity.
Qed.

Lemma Map_identity_witness :
  Maybe_wf (Just 25%Z) /\
  Result_wf (@Err int _ (errors_New "bad")) /\
  Map (Just 25%Z) (pure_fn (fun x => x)) tt = (Just 25%Z, tt) /\
  MapResult (@Err int _ (errors_New "bad")) (pure_fn (fun x => x)) tt
    = (Err (errors_New "bad"), tt).
Proof.
  split; [reflexivity|]. split; [reflexivity|].
  apply (@Map_identity unit int _ (Just 25%Z)
           (@Err int _ (errors_New "bad")) tt); reflexivity.
Defined.

(** ** Swap *)

(** C6.  [Swap] moves the payload to the other side as it is, and swapping
    twice gives back the [Either] one started from. *)
Theorem Swap_involution
    {A B : Type} `{Zero A} `{Zero B} (e : Either A B) (a : A) (b : B) :
  Either_wf e ->
  Swap (Swap e) = e /\
  Swap (@Left A B _ a) = Right a /\
  Swap (@Right A B _ b) = Left b.
Proof.
  unfold Either_wf, Swap. intros He.
  destruct (isLeft e); rewrite He; repeat split.
Qed.

Lemma Swap_involution_witness :
  Either_wf (@Right string int _ 100%Z) /\
  Swap (Swap (@Right string int _ 100%Z)) = Right 100%Z /\
  Swap (@Left string int _ "a") = Right "a" /\
  Swap (@Right string int _ 100%Z) = Left 100%Z.
Proof.
  split; [reflexivity|].
  apply (@Swap_involution string int _ _
           (@Right string int _ 100%Z) "a" 100%Z).
  reflexivity.
Defined.

(** C7.  Folding the swap of a right-populated [Either] selects the first
    function: the swap is left-populated and carries the former right
    payload on its left, [Fold] hands that payload to the first function,
    and of two logged functions only the first is recorded.  In
    particular the swap of [Right[string, int](100)] is [Left(100)], and
    folding it with [i -> "num"] and [s -> "str"] yields ["num"]. *)
Theorem Fold_Swap_right_populated
    {W L A B T : Type} `{Zero A} `{Zero B}
    (e : Either A B) (onLeft : B -> Eff W T) (onRight : A -> Eff W T)
    (tl tr : L) (w : W) (log : list L) :
  Either.IsRight e = true ->
  (Either.IsLeft (Swap e) = true /\
   Either.Left (Swap e) = Either.Right e) /\
  (Fold (Swap e) onLeft onRight w = onLeft (Either.Right e) w /\
   call_log (Fold (Swap e) (logged tl onLeft) (logged tr onRight) (w, log))
     = tl :: log) /\
  (Swap (@Right string int _ 100%Z) = Left 100%Z /\
   Either.Left (Swap (@Right string int _ 100%Z)) = 100%Z /\
   Fold (Swap (@Right string int _ 100%Z))
        (pure_fn (fun i : int => "num"))
        (pure_fn (fun s : string => "str")) w
     = ("num", w)).
Proof.
  unfold Either.IsRight, Either.IsLeft, Either.Left, Either.Right.
  intros He.
  assert (Hs : Swap e = Left (right e)).
  { unfold Swap. destruct (isLeft e); [discriminate|reflexivity]. }
  rewrite Hs. unfold Fold. simpl.
  repeat split. apply call_log_logged.
Qed.

Lemma Fold_Swap_right_populated_witness :
  let onLeft : int -> Eff nat string :=
    fun i n => (if (i =? 100)%Z then "num" else "other", S n) in
  let onRight : string -> Eff nat string := fun s n => ("str", n + 10) in
  Either.IsRight (@Right string int _ 100%Z) = true /\
  (Either.IsLeft (Swap (@Right string int _ 100%Z)) = true /\
   Either.Left (Swap (@Right string int _ 100%Z)) = 100%Z) /\
  (Fold (Swap (@Right string int _ 100%Z)) onLeft onRight 0 = ("num", 1) /\
   call_log (Fold (Swap (@Right string int _ 100%Z))
               (logged "onLeft" onLeft) (logged "onRight" onRight) (0, []))
     = ["onLeft"]).
Proof.
  intros onLeft onRight. split; [reflexivity|].
  destruct (@Fold_Swap_right_populated nat string string int string _ _
              (@Right string int _ 100%Z) onLeft onRight
              "onLeft" "onRight" 0 [] eq_refl) as [Hside [Hfold _]].
  split; [exact Hside | exact Hfold].
Defined.

(** ** Accessors on the other variant *)

(** C8.  An accessor called on the variant that does not hold its payload
    returns the zero value of the payload type: [Get] on an absent
    [Maybe], [Left] on a right-populated [Either] and [Right] on a
    left-populated one.  The accessors are total, so nothing is raised. *)
Theorem wrong_side_accessor_zero
    {T A B : Type} `{Zero T} `{Zero A} `{Zero B}
    (m : Maybe T) (er el : Either A B) :
  Maybe_wf m -> Maybe.IsNothing m = true ->
  Either_wf er -> Either.IsRight er = true ->
  Either_wf el -> Either.IsLeft el = true ->
  Maybe.Get m = zero /\
  Either.Left er = zero /\
  Either.Right el = zero.
Proof.
  unfold Maybe_wf, Either_wf.
  unfold Maybe.IsNothing, Maybe.Get.
  unfold Either.IsRight, Either.IsLeft, Either.Left, Either.Right.
  intros Hm Hn Her Hr Hel Hl.
  destruct (maybepkg.isJust m); [discriminate|].
  destruct (isLeft er); [discriminate|].
  destruct (isLeft el); [|discriminate].
  rewrite Hm, Her, Hel. repeat split.
Qed.

Lemma wrong_side_accessor_zero_witness :
  Maybe_wf (@Nothing string _) /\
  Maybe.IsNothing (@Nothing string _) = true /\
  Either_wf (@Right string int _ 100%Z) /\
  Either.IsRight (@Right string int _ 100%Z) = true /\
  Either_wf (@Left string int _ "a") /\
  Either.IsLeft (@Left string int _ "a") = true /\
  Maybe.Get (@Nothing string _) = "" /\
  Either.Left (@Right string int _ 100%Z) = "" /\
  Either.Right (@Left string int _ "a") = 0%Z.
Proof.
  do 6 (split; [reflexivity|]).
  apply (@wrong_side_accessor_zero string string int _ _ _
           (@Nothing string _)
           (@Right string int _ 100%Z) (@Left string int _ "a"));
    reflexivity.
Defined.

(** ** The bridge and mapping *)

(** C9.  Mapping the right side and then converting to a [Result] is
    converting first and then mapping the success value: same result, same
    effects. *)
Theorem ToResult_MapRight
    {W T U : Type} `{Zero T} `{Zero U}
    (e : Either error T) (f : T -> Eff W U) (w : W) :
  (e' <- MapRight e f ;; ret (ToResult e')) w = MapResult (ToResult e) f w.
Proof.
  unfold MapRight, MapResult, ToResult, bind, ret.
  destruct (isLeft e); simpl.
  - reflexivity.
  - destruct (f (right e) w); reflexivity.
Qed.

(** ** Failure with a nil error *)


(** ** Scenarios from the package documentation *)

Example findUser_42_Unpack :
  Maybe.Unpack (findUser 42%Z) "Unknown" = "Alice".
Proof. reflexivity. Qed.

Example findUser_7_Unpack :
  Maybe.Unpack (findUser 7%Z) "Unknown" = "Unknown".
Proof. reflexivity. Qed.

Example BindResult_adult :
  BindResult (Ok 25%Z) checkAge tt = (Ok 25%Z, tt).
Proof. reflexivity. Qed.

Example BindResult_minor :
  BindResult (Ok 12%Z) checkAge tt = (Err (errors_New "too young"), tt).
Proof. reflexivity. Qed.

Example MapResult_Ok_25 :
  MapResult (Ok 25%Z) (pure_fn (fun age => age - 18)%Z) tt = (Ok 7%Z, tt).
Proof. reflexivity. Qed.

(** The records are larger than the set of values a client can hold: a
    record that no constructor builds, an absent [Maybe] with a payload
    left in its field, is not returned unchanged by [Map]. *)
Example Map_rebuilds_Nothing :
  Map {| maybepkg.value := 5%Z; maybepkg.isJust := false |}
      (pure_fn (fun x => x)) tt
    = (Nothing, tt) /\
  ~ Maybe_wf {| maybepkg.value := 5%Z; maybepkg.isJust := false |}.
Proof. split; [reflexivity|]. unfold Maybe_wf. simpl. discriminate. Qed.

(** * Further properties of the package *)

(** ** Maybe *)

(** X1.  The identity laws of [Bind]: binding a function to [Just v] is
    calling it on [v], and binding [Just] itself to a constructor-built
    [Maybe] gives that [Maybe] back. *)
Theorem Bind_identities
    {W T U : Type} `{Zero T} `{Zero U}
    (m : Maybe T) (v : T) (f : T -> Eff W (Maybe U)) (w : W) :
  Maybe_wf m ->
  Bind (Just v) f w = f v w /\
  Bind m (pure_fn Just) w = (m, w).
Proof.
  unfold Maybe_wf, Bind. intros Hm. split; [reflexivity|].
  destruct (maybepkg.isJust m); rewrite Hm; reflexivity.
Qed.

Lemma Bind_identities_witness :
  Maybe_wf (@Nothing int _) /\
  Bind (Just 3%Z) (fun x n => (Just (x + 1)%Z, S n)) 0 = (Just 4%Z, 1) /\
  Bind (@Nothing int _) (pure_fn Just) 0 = (Nothing, 0).
Proof.
  split; [reflexivity|].
  apply (@Bind_identities nat int int _ _ (@Nothing int _) 3%Z
           (fun x n => (Just (x + 1)%Z, S n)) 0).
  reflexivity.
Defined.

(** X2.  [Map] and [MapResult] respect composition: mapping [f] and then
    [g] is mapping the function that runs [f] and then [g], with the same
    effects in the same order. *)
Theorem Map_composition
    {W T U V : Type} `{Zero U} `{Zero V}
    (m : Maybe T) (r : Result T)
    (f : T -> Eff W U) (g : U -> Eff W V) (w : W) :
  (m' <- Map m f ;; Map m' g) w = Map m (fun x => y <- f x ;; g y) w /\
  (r' <- MapResult r f ;; MapResult r' g) w
    = MapResult r (fun x => y <- f x ;; g y) w.
Proof.
  unfold Map, MapResult, bind, ret. split.
  - destruct (maybepkg.isJust m); simpl; [|reflexivity].
    destruct (f (maybepkg.value m) w); reflexivity.
  - destruct (isError r); simpl; [reflexivity|].
    destruct (f (value r) w); reflexivity.
Qed.

(** X3.  [Map] and [Bind] invoke their function exactly once on a present
    [Maybe] and not at all on an absent one, and [Map] never changes
    whether a value is present. *)
Theorem Maybe_invocations
    {W L T U : Type} `{Zero U}
    (m : Maybe T) (f : T -> Eff W U) (g : T -> Eff W (Maybe U))
    (tag : L) (w : W) (log : list L) :
  call_log (Map m (logged tag f) (w, log))
    = (if Maybe.IsJust m then tag :: log else log) /\
  call_log (Bind m (logged tag g) (w, log))
    = (if Maybe.IsJust m then tag :: log else log) /\
  Maybe.IsJust (fst (Map m f w)) = Maybe.IsJust m.
Proof.
  unfold Maybe.IsJust, Map, Bind, bind, ret.
  destruct (maybepkg.isJust m); simpl; repeat split.
  - unfold call_log, logged; simpl.
    destruct (f (maybepkg.value m) w); reflexivity.
  - apply call_log_logged.
  - destruct (f (maybepkg.value m) w); reflexivity.
Qed.

(** X4.  [Unpack] gives the payload of [Just v] and the default on
    [Nothing], and it commutes with [Map]: unpacking the mapped value with
    default [f d] is [f] applied to the value unpacked with default [d]. *)
Theorem Unpack_Map
    {W T U : Type} `{Zero T} `{Zero U}
    (m : Maybe T) (v d : T) (f : T -> U) (w : W) :
  Maybe.Unpack (Just v) d = v /\
  Maybe.Unpack Nothing d = d /\
  Maybe.Unpack (fst (Map m (pure_fn f) w)) (f d) = f (Maybe.Unpack m d).
Proof.
  unfold Maybe.Unpack, Map. repeat split.
  destruct (maybepkg.isJust m); reflexivity.
Qed.

(** X5.  The [Maybe] returned by [Bind] is present exactly when the input
    is present and the function returns a present value for its payload. *)
Theorem Bind_present_iff
    {W T U : Type} `{Zero U}
    (m : Maybe T) (f : T -> Eff W (Maybe U)) (w : W) :
  Maybe.IsJust (fst (Bind m f w))
    = Maybe.IsJust m && Maybe.IsJust (fst (f (Maybe.Get m) w)).
Proof.
  unfold Maybe.IsJust, Maybe.Get, Bind.
  destruct (maybepkg.isJust m); reflexivity.
Qed.




(** ** Result *)

(** X8.  The identity laws of [BindResult]: binding a function to [Ok v] is
    calling it on [v], and binding [Ok] itself to a constructor-built
    [Result] gives that [Result] back. *)
Theorem BindResult_identities
    {W T U : Type} `{Zero T} `{Zero U}
    (r : Result T) (v : T) (f : T -> Eff W (Result U)) (w : W) :
  Result_wf r ->
  BindResult (Ok v) f w = f v w /\
  BindResult r (pure_fn Ok) w = (r, w).
Proof.
  unfold Result_wf, BindResult. intros Hr. split; [reflexivity|].
  destruct (isError r); rewrite Hr; reflexivity.
Qed.

Lemma BindResult_identities_witness :
  Result_wf (@Err int _ (errors_New "bad")) /\
  BindResult (Ok 25%Z) (@checkAge unit) tt = (Ok 25%Z, tt) /\
  BindResult (@Err int _ (errors_New "bad")) (pure_fn Ok) tt
    = (Err (errors_New "bad"), tt).
Proof.
  split; [reflexivity|].
  apply (@BindResult_identities unit int int _ _
           (@Err int _ (errors_New "bad")) 25%Z (@checkAge unit) tt).
  reflexivity.
Defined.

(** X9.  [MapResult] and [BindResult] invoke their function exactly once on
    a success and not at all on a failure; [MapResult] never changes which
    variant a result is, and the error of its result is the input's error
    on a failure and nil on a success. *)
Theorem Result_invocations
    {W L T U : Type} `{Zero U}
    (r : Result T) (f : T -> Eff W U) (g : T -> Eff W (Result U))
    (tag : L) (w : W) (log : list L) :
  call_log (MapResult r (logged tag f) (w, log))
    = (if Result.IsOk r then tag :: log else log) /\
  call_log (BindResult r (logged tag g) (w, log))
    = (if Result.IsOk r then tag :: log else log) /\
  Result.IsErr (fst (MapResult r f w)) = Result.IsErr r /\
  Result.GetErr (fst (MapResult r f w))
    = (if Result.IsErr r then Result.GetErr r else nil).
Proof.
  unfold Result.IsOk, Result.IsErr, Result.GetErr.
  unfold MapResult, BindResult, bind, ret.
  destruct (isError r); simpl; repeat split.
  - unfold call_log, logged; simpl.
    destruct (f (value r) w); reflexivity.
  - apply call_log_logged.
  - destruct (f (value r) w); reflexivity.
  - destruct (f (value r) w); reflexivity.
Qed.

(** X10.  The [Result] returned by [BindResult] is a success exactly when
    the input is a success and the function succeeds on its payload; its
    error is the input's error when the input failed and the function's
    error otherwise, so the first failure is the one reported. *)
Theorem BindResult_first_failure
    {W T U : Type} `{Zero U}
    (r : Result T) (f : T -> Eff W (Result U)) (w : W) :
  Result.IsOk (fst (BindResult r f w))
    = Result.IsOk r && Result.IsOk (fst (f (Result.Get r) w)) /\
  Result.GetErr (fst (BindResult r f w))
    = (if Result.IsErr r then Result.GetErr r
       else Result.GetErr (fst (f (Result.Get r) w))).
Proof.
  unfold Result.IsOk, Result.IsErr, Result.Get, Result.GetErr, BindResult.
  destruct (isError r); split; reflexivity.
Qed.

(** X11.  On a constructor-built [Result], [Get] on a failure returns the
    zero value of the payload type and [GetErr] on a success returns nil. *)
Theorem Result_wrong_accessor
    {T : Type} `{Zero T} (rf rs : Result T) :
  Result_wf rf -> Result.IsErr rf = true ->
  Result_wf rs -> Result.IsOk rs = true ->
  Result.Get rf = zero /\ Result.GetErr rs = nil.
Proof.
  unfold Result_wf, Result.IsErr, Result.IsOk, Result.Get, Result.GetErr.
  intros Hf Ef Hs Es.
  destruct (isError rf); [|discriminate].
  destruct (isError rs); [discriminate|].
  rewrite Hf, Hs. split; reflexivity.
Qed.

Lemma Result_wrong_accessor_witness :
  Result_wf (@Err int _ (errors_New "bad")) /\
  Result.IsErr (@Err int _ (errors_New "bad")) = true /\
  Result_wf (Ok 25%Z) /\
  Result.IsOk (Ok 25%Z) = true /\
  Result.Get (@Err int _ (errors_New "bad")) = 0%Z /\
  Result.GetErr (Ok 25%Z) = nil.
Proof.
  do 4 (split; [reflexivity|]).
  apply (@Result_wrong_accessor int _
           (@Err int _ (errors_New "bad")) (Ok 25%Z)); reflexivity.
Defined.




(** ** Either *)

(** X14.  [MapRight] invokes its function exactly once on a right-populated
    [Either] and not at all on a left-populated one, [MapLeft] the other
    way round, and neither changes which side is populated. *)
Theorem Either_invocations
    {W L A B C : Type} `{Zero A} `{Zero B} `{Zero C}
    (e : Either A B) (f : B -> Eff W C) (g : A -> Eff W C)
    (tag : L) (w : W) (log : list L) :
  call_log (MapRight e (logged tag f) (w, log))
    = (if Either.IsRight e then tag :: log else log) /\
  call_log (MapLeft e (logged tag g) (w, log))
    = (if Either.IsLeft e then tag :: log else log) /\
  Either.IsLeft (fst (MapRight e f w)) = Either.IsLeft e /\
  Either.IsLeft (fst (MapLeft e g w)) = Either.IsLeft e.
Proof.
  unfold Either.IsRight, Either.IsLeft, MapRight, MapLeft, bind, ret.
  unfold call_log, logged.
  destruct (isLeft e); simpl; repeat split;
    try destruct (f (right e) w); try destruct (g (left e) w); reflexivity.
Qed.

(** X15.  [MapLeft] and [MapRight] commute, effects included: only the
    function of the populated side is ever run. *)
Theorem MapLeft_MapRight_commute
    {W A B C D : Type} `{Zero A} `{Zero B} `{Zero C} `{Zero D}
    (e : Either A B) (f : A -> Eff W C) (g : B -> Eff W D) (w : W) :
  (e' <- MapLeft e f ;; MapRight e' g) w
    = (e' <- MapRight e g ;; MapLeft e' f) w.
Proof.
  unfold MapLeft, MapRight, bind, ret.
  destruct (isLeft e); simpl.
  - destruct (f (left e) w); reflexivity.
  - destruct (g (right e) w); reflexivity.
Qed.

(** X16.  [Swap] exchanges the two maps: mapping the left side and then
    swapping is swapping and then mapping the right side, and the other
    way round. *)
Theorem Swap_exchanges_maps
    {W A B C : Type} `{Zero A} `{Zero B} `{Zero C}
    (e : Either A B) (f : A -> Eff W C) (g : B -> Eff W C) (w : W) :
  (e' <- MapLeft e f ;; ret (Swap e')) w = MapRight (Swap e) f w /\
  (e' <- MapRight e g ;; ret (Swap e')) w = MapLeft (Swap e) g w.
Proof.
  unfold MapLeft, MapRight, Swap, bind, ret.
  destruct (isLeft e); simpl; split;
    try destruct (f (left e) w); try destruct (g (right e) w); reflexivity.
Qed.

(** X17.  Folding a swapped [Either] is folding the original with the two
    functions exchanged, and the swapped [Either] is left-populated exactly
    when the original is right-populated. *)
Theorem Fold_Swap
    {W A B T : Type} `{Zero A} `{Zero B}
    (e : Either A B) (onLeft : B -> Eff W T) (onRight : A -> Eff W T)
    (w : W) :
  Fold (Swap e) onLeft onRight w = Fold e onRight onLeft w /\
  Either.IsLeft (Swap e) = Either.IsRight e.
Proof.
  unfold Fold, Swap, Either.IsLeft, Either.IsRight.
  destruct (isLeft e); split; reflexivity.
Qed.

(** X18.  Folding after a map is folding with the mapped function composed
    into the branch of that side; the other branch is untouched. *)
Theorem Fold_after_map
    {W A B C T : Type} `{Zero A} `{Zero B} `{Zero C}
    (e : Either A B) (f : B -> Eff W C) (g : A -> Eff W C)
    (onA : A -> Eff W T) (onB : B -> Eff W T) (onC : C -> Eff W T) (w : W) :
  (e' <- MapRight e f ;; Fold e' onA onC) w
    = Fold e onA (fun b => y <- f b ;; onC y) w /\
  (e' <- MapLeft e g ;; Fold e' onC onB) w
    = Fold e (fun a => y <- g a ;; onC y) onB w.
Proof.
  unfold MapRight, MapLeft, Fold, bind, ret.
  destruct (isLeft e); simpl; split;
    try destruct (f (right e) w); try destruct (g (left e) w); reflexivity.
Qed.

(** X19.  Mapping the identity function over either side of a
    constructor-built [Either] returns that very [Either]. *)
Theorem MapSide_identity
    {W A B : Type} `{Zero A} `{Zero B} (e : Either A B) (w : W) :
  Either_wf e ->
  MapRight e (pure_fn (fun x => x)) w = (e, w) /\
  MapLeft e (pure_fn (fun x => x)) w = (e, w).
Proof.
  unfold Either_wf, MapRight, MapLeft. intros He.
  destruct (isLeft e); rewrite He; split; reflexivity.
Qed.

Lemma MapSide_identity_witness :
  Either_wf (@Left string int _ "a") /\
  MapRight (@Left string int _ "a") (pure_fn (fun x => x)) tt
    = (Left "a", tt) /\
  MapLeft (@Left string int _ "a") (pure_fn (fun x => x)) tt
    = (Left "a", tt).
Proof.
  split; [reflexivity|].
  apply (@MapSide_identity unit string int _ _ (@Left string int _ "a") tt).
  reflexivity.
Defined.

(** X20.  [MapRight] and [MapLeft] respect composition: two maps in a row
    are one map with the composed function, effects in the same order. *)
Theorem MapSide_composition
    {W A B C D : Type} `{Zero A} `{Zero B} `{Zero C} `{Zero D}
    (e : Either A B)
    (f : B -> Eff W C) (g : C -> Eff W D)
    (h : A -> Eff W C) (k : C -> Eff W D) (w : W) :
  (e' <- MapRight e f ;; MapRight e' g) w
    = MapRight e (fun x => y <- f x ;; g y) w /\
  (e' <- MapLeft e h ;; MapLeft e' k) w
    = MapLeft e (fun x => y <- h x ;; k y) w.
Proof.
  unfold MapRight, MapLeft, bind, ret.
  destruct (isLeft e); simpl; split;
    try destruct (f (right e) w); try destruct (h (left e) w); reflexivity.
Qed.

(** ** The bridge *)

(** X21.  [ToResult] is the fold of an [Either] with the two [Result]
    constructors, and its result is a failure exactly when the [Either] is
    left-populated. *)
Theorem ToResult_is_Fold
    {W T : Type} `{Zero T} (e : Either error T) (w : W) :
  Fold e (pure_fn Err) (pure_fn Ok) w = (ToResult e, w) /\
  Result.IsErr (ToResult e) = Either.IsLeft e /\
  Result.IsOk (ToResult e) = Either.IsRight e.
Proof.
  unfold Fold, ToResult, Result.IsErr, Result.IsOk.
  unfold Either.IsLeft, Either.IsRight.
  destruct (isLeft e); repeat split.
Qed.

(** X22.  [ToResult] loses nothing: two constructor-built [Either]s with
    the same [Result] are the same [Either]. *)
Theorem ToResult_injective
    {T : Type} `{Zero T} (e1 e2 : Either error T) :
  Either_wf e1 -> Either_wf e2 ->
  ToResult e1 = ToResult e2 -> e1 = e2.
Proof.
  unfold Either_wf, ToResult. intros H1 H2.
  destruct (isLeft e1), (isLeft e2); rewrite H1, H2; intros E;
    try discriminate E; injection E as E; rewrite E; reflexivity.
Qed.

Lemma ToResult_injective_witness :
  Either_wf (@Right error int _ 7%Z) /\
  Either_wf (Swap (@Left int error _ 7%Z)) /\
  ToResult (@Right error int _ 7%Z) = ToResult (Swap (@Left int error _ 7%Z)) /\
  @Right error int _ 7%Z = Swap (@Left int error _ 7%Z).
Proof.
  split; [reflexivity|]. split; [reflexivity|]. split; [reflexivity|].
  apply (@ToResult_injective int _
           (@Right error int _ 7%Z) (Swap (@Left int error _ 7%Z)));
    reflexivity.
Defined.

(** ** Closure of the constructor-built values *)

(** X23.  Every function of package maybepkg returns a [Maybe] that [Just]
    or [Nothing] built, whatever record it is given, provided the function
    passed to [Bind] does. *)
Theorem maybepkg_returns_built
    {W T U : Type} `{Zero T} `{Zero U}
    (m : Maybe T) (v : T) (f : T -> Eff W U) (g : T -> Eff W (Maybe U))
    (w : W) :
  (forall x w0, Maybe_wf (fst (g x w0))) ->
  Maybe_wf (Just v) /\
  Maybe_wf (@Nothing T _) /\
  Maybe_wf (fst (Map m f w)) /\
  Maybe_wf (fst (Bind m g w)).
Proof.
  intros Hg. repeat split.
  - apply Map_wf.
  - apply Bind_wf, Hg.
Qed.

Lemma maybepkg_returns_built_witness :
  let g : int -> Eff nat (Maybe string) :=
    fun id n => (findUser id, S n) in
  let m : Maybe int := {| maybepkg.value := 42%Z; maybepkg.isJust := false |} in
  (forall x w0, Maybe_wf (fst (g x w0))) /\
  Maybe_wf (Just 42%Z) /\
  Maybe_wf (@Nothing int _) /\
  Maybe_wf (fst (Map m (pure_fn (fun x : int => "n")) 0)) /\
  Maybe_wf (fst (Bind m g 0)).
Proof.
  intros g m.
  assert (Hg : forall x w0, Maybe_wf (fst (g x w0))).
  { intros x w0. unfold g, findUser. simpl.
    destruct (x =? 42)%Z; reflexivity. }
  split; [exact Hg|].
  apply (@maybepkg_returns_built nat int string _ _ m 42%Z
           (pure_fn (fun x : int => "n")) g 0 Hg).
Defined.

(** X24.  Every function of package gomonad returns a [Result] or an
    [Either] that a constructor built, whatever record it is given and
    whatever type its function maps to, provided the function passed to
    [BindResult] does. *)
Theorem gomonad_returns_built
    {W T U A B C D : Type}
    `{Zero T} `{Zero U} `{Zero A} `{Zero B} `{Zero C} `{Zero D}
    (r : Result T) (b : Either error T) (e : Either A B)
    (f : T -> Eff W U) (g : T -> Eff W (Result U))
    (h : A -> Eff W C) (k : B -> Eff W D)
    (w : W) :
  (forall x w0, Result_wf (fst (g x w0))) ->
  (Result_wf (fst (MapResult r f w)) /\
   Result_wf (fst (BindResult r g w)) /\
   Result_wf (ToResult b)) /\
  (Either_wf (Swap e) /\
   Either_wf (fst (MapLeft e h w)) /\
   Either_wf (fst (MapRight e k w))).
Proof.
  intros Hg. repeat split.
  - apply MapResult_wf.
  - apply BindResult_wf, Hg.
  - apply ToResult_wf.
  - apply Swap_wf.
  - apply MapLeft_wf.
  - apply MapRight_wf.
Qed.

Lemma gomonad_returns_built_witness :
  let r : Result int :=
    {| value := 5%Z; err := errors_New "bad"; isError := false |} in
  let b : Either error int :=
    {| left := errors_New "bad"; right := 2%Z; isLeft := false |} in
  let e : Either int string :=
    {| left := 1%Z; right := "x"; isLeft := true |} in
  let f : int -> Eff nat int := fun x n => ((x + 1)%Z, S n) in
  let h : int -> Eff nat bool := fun x n => ((x <? 18)%Z, S n) in
  let k : string -> Eff nat error := fun x n => (errors_New x, S n) in
  (forall x w0, Result_wf (fst (@checkAge nat x w0))) /\
  (Result_wf (fst (MapResult r f 0)) /\
   Result_wf (fst (BindResult r (@checkAge nat) 0)) /\
   Result_wf (ToResult b)) /\
  (Either_wf (Swap e) /\
   Either_wf (fst (MapLeft e h 0)) /\
   Either_wf (fst (MapRight e k 0))).
Proof.
  intros r b e f h k.
  assert (Hg : forall x w0, Result_wf (fst (@checkAge nat x w0))).
  { intros x w0. unfold checkAge. destruct (x <? 18)%Z; reflexivity. }
  split; [exact Hg|].
  apply (@gomonad_returns_built nat int int int string bool error
           _ _ _ _ _ _ r b e f (@checkAge nat) h k 0 Hg).
Defined.
